(** * kdb_server.py: the KDB+ query gateway

    A shallow embedding of [src/kdb_server.py] and the properties of its
    connect-then-query life cycle.

    The module keeps one global, [kdb_connection], and talks to three
    things it does not implement: the [kola] client library (and through it
    the remote database), the system clock, and the Python runtime's
    [int()].  Those are the fields of the record [Externals]; every
    definition below is parametric in it, so each theorem holds for every
    behaviour of the library and of the database. *)

From Stdlib Require Import ZArith NArith List String Ascii Bool.
From stdpp Require Import list gmap strings.

Set Implicit Arguments.
Set Warnings "-register-all".
Set Default Proof Using "Type".

Local Open Scope string_scope.
Local Open Scope list_scope.

(** ** Python strings

    A Python [str] is a sequence of Unicode code points.  Source literals are
    ASCII and are written through [lit]. *)

Definition codepoint := N.
Definition pystr := list codepoint.

Fixpoint lit (s : string) : pystr :=
  match s with
  | EmptyString => []
  | String a s' => N_of_ascii a :: lit s'
  end.

Arguments lit s : simpl never.

(** [str.strip()] with no argument removes the characters for which
    [Py_UNICODE_ISSPACE] holds (the table of CPython's
    [_PyUnicode_IsWhitespace]). *)
Definition Py_UNICODE_ISSPACE (c : codepoint) : bool :=
  (((0x09 <=? c) && (c <=? 0x0D))
   || ((0x1C <=? c) && (c <=? 0x20))
   || (c =? 0x85) || (c =? 0xA0) || (c =? 0x1680)
   || ((0x2000 <=? c) && (c <=? 0x200A))
   || (c =? 0x2028) || (c =? 0x2029) || (c =? 0x202F)
   || (c =? 0x205F) || (c =? 0x3000))%N.

Fixpoint lstrip (s : pystr) : pystr :=
  match s with
  | [] => []
  | c :: s' => if Py_UNICODE_ISSPACE c then lstrip s' else s
  end.

Definition rstrip (s : pystr) : pystr := rev (lstrip (rev s)).

Definition strip (s : pystr) : pystr := rstrip (lstrip s).

(** "Consists only of whitespace": every character is a space for
    [str.strip()].  The empty string is one such string. *)
Definition whitespace_only (s : pystr) : Prop :=
  Forall (fun c => Py_UNICODE_ISSPACE c = true) s.

(** ** Exceptions and outcomes

    [exn] stands for an instance of [Exception]: its class name and what
    [str(e)] gives.  Only such exceptions are modelled, so [except Exception]
    is a handler for all of them. *)

Record exn := Exn { exn_class : string; exn_str : pystr }.

Inductive outcome (A : Type) : Type :=
| Returned (a : A)
| Raised (e : exn).
Arguments Returned {A} a.
Arguments Raised {A} e.

(** ** JSON documents

    What the operations hand to [json.dumps].  Object members are kept in
    source order.  [JData v] is the text that
    [json.dumps(..., default=str)] emits for the Python value [v] received
    from the database. *)

Inductive json (V : Type) : Type :=
| JNull
| JBool (b : bool)
| JInt (z : Z)
| JStr (s : pystr)
| JList (l : list (json V))
| JObj (members : list (string * json V))
| JData (v : V).
Arguments JNull {V}.
Arguments JBool {V} b.
Arguments JInt {V} z.
Arguments JStr {V} s.
Arguments JList {V} l.
Arguments JObj {V} members.
Arguments JData {V} v.

(** [d.get(key)] on the members of an object: the first binding of [key]. *)
Fixpoint field {V : Type} (key : string) (members : list (string * json V))
  : option (json V) :=
  match members with
  | [] => None
  | (k, v) :: rest => if String.eqb k key then Some v else field key rest
  end.

(** ** The collaborators *)

Record Externals (W H V : Type) : Type := MkExternals {
  (** [int(s)] on a [str]: a [ValueError] or the number. *)
  py_int : pystr -> exn + Z;
  (** [datetime.now().isoformat()]: a read of the clock. *)
  now_isoformat : W -> pystr;
  (** [kola.Q(host=host, port=port)]. *)
  kola_Q : pystr -> Z -> W -> outcome H * W;
  (** [handle.connect()]. *)
  kola_connect : H -> W -> outcome unit * W;
  (** [handle.sync(query)]. *)
  kola_sync : H -> pystr -> W -> outcome V * W;
  (** [hasattr(result, 'py')] and [result.py()]. *)
  has_py : V -> bool;
  call_py : V -> W -> outcome V * W;
  (** [format(py_result)] inside the f-string of the "Raw result" line. *)
  format_value : V -> W -> outcome pystr * W;
  (** [type(py_result).__name__]. *)
  type_name : V -> pystr;
  (** [json.dumps(response, indent=2, default=str)] on the payload: it
      raises on a circular value or on a dict key it cannot encode. *)
  json_encode : V -> W -> outcome unit * W
}.

(** ** Process state *)

(** The lines the module prints, kept as records rather than formatted. *)
Inductive line (V : Type) : Type :=
| Connecting (host : pystr) (port : Z)
| ConnectedOk
| ConnectFailed (e : exn)
| Executing (query : pystr)
| RawResult (text : pystr) (v : V)
| QueryFailed (e : exn).
Arguments Connecting {V} host port.
Arguments ConnectedOk {V}.
Arguments ConnectFailed {V} e.
Arguments Executing {V} query.
Arguments RawResult {V} text v.
Arguments QueryFailed {V} e.

(** What the process does that can be observed from outside, oldest
    first: lines on stdout and calls into [kola]. *)
Inductive event (H V : Type) : Type :=
| Print (l : line V)
| CallQ (host : pystr) (port : Z)
| CallConnect (h : H)
| CallSync (h : H) (query : pystr)
| CallPy (v : V).
Arguments Print {H V} l.
Arguments CallQ {H V} host port.
Arguments CallConnect {H V} h.
Arguments CallSync {H V} h query.
Arguments CallPy {H V} v.

Record machine (W H V : Type) : Type := MkMachine {
  world : W;
  kdb_connection : option H;
  environ : gmap string pystr;
  events : list (event H V)
}.

(** The state at import time: [kdb_connection = None]. *)
Definition initial {W H V : Type} (w : W) (env : gmap string pystr)
  : machine W H V :=
  {| world := w; kdb_connection := None; environ := env; events := [] |}.

(** ** The state-and-exception monad *)

Definition M (S A : Type) : Type := S -> outcome A * S.

Definition ret {S A : Type} (a : A) : M S A := fun s => (Returned a, s).

Definition raise {S A : Type} (e : exn) : M S A := fun s => (Raised e, s).

Definition bind {S A B : Type} (m : M S A) (k : A -> M S B) : M S B :=
  fun s =>
    match m s with
    | (Returned a, s') => k a s'
    | (Raised e, s') => (Raised e, s')
    end.

(** [try: body  except Exception as e: handler e].  Effects of [body]
    before the exception stay. *)
Definition try_except {S A : Type} (body : M S A) (handler : exn -> M S A)
  : M S A :=
  fun s =>
    match body s with
    | (Returned a, s') => (Returned a, s')
    | (Raised e, s') => handler e s'
    end.

Declare Scope py_scope.
Delimit Scope py_scope with py.
Notation "x <- m ;; k" := (bind m (fun x => k))
  (at level 100, m at next level, right associativity) : py_scope.
Notation "m ;; k" := (bind m (fun _ => k))
  (at level 100, right associativity) : py_scope.
Local Open Scope py_scope.

Section Gateway.

Context {W H V : Type}.
Variable K : Externals W H V.

Local Abbreviation state := (machine W H V).
Local Abbreviation Py := (M state).

(** *** Primitive steps *)

Definition emit (e : event H V) : Py unit :=
  fun m =>
    (Returned tt,
     {| world := world m; kdb_connection := kdb_connection m;
        environ := environ m; events := events m ++ [e] |}).

Definition print (l : line V) : Py unit := emit (Print l).

(** A call into the library: recorded, then run on the world. *)
Definition extern {A : Type} (e : event H V) (f : W -> outcome A * W)
  : Py A :=
  fun m =>
    let '(r, w') := f (world m) in
    (r,
     {| world := w'; kdb_connection := kdb_connection m;
        environ := environ m; events := events m ++ [e] |}).

(** A call into the runtime that leaves no event of its own
    ([format], [json.dumps]). *)
Definition runtime {A : Type} (f : W -> outcome A * W) : Py A :=
  fun m =>
    let '(r, w') := f (world m) in
    (r,
     {| world := w'; kdb_connection := kdb_connection m;
        environ := environ m; events := events m |}).

(** [os.getenv(name, default)] with a [str] default. *)
Definition os_getenv (name : string) (dflt : pystr) : Py pystr :=
  fun m => (Returned (default dflt (environ m !! name)), m).

(** [int(os.getenv('KDB_PORT', 4000))]: the default is already the
    number 4000; a value that is set goes through [int()]. *)
Definition int_getenv_port : Py Z :=
  fun m =>
    match environ m !! "KDB_PORT" with
    | None => (Returned 4000%Z, m)
    | Some s =>
        match py_int K s with
        | inr port => (Returned port, m)
        | inl e => (Raised e, m)
        end
    end.

(** [datetime.now().isoformat()]. *)
Definition now : Py pystr :=
  fun m => (Returned (now_isoformat K (world m)), m).

Definition get_kdb_connection : Py (option H) :=
  fun m => (Returned (kdb_connection m), m).

Definition set_kdb_connection (h : H) : Py unit :=
  fun m =>
    (Returned tt,
     {| world := world m; kdb_connection := Some h;
        environ := environ m; events := events m |}).

(** [kdb_connection.attr] on the global: an [AttributeError] when the
    global is [None]. *)
Definition AttributeError (attr : string) : exn :=
  {| exn_class := "AttributeError";
     exn_str := lit "'NoneType' object has no attribute '"
                ++ lit attr ++ lit "'" |}.

Definition kdb_connection_attr (attr : string) : Py H :=
  c <- get_kdb_connection ;;
  match c with
  | Some h => ret h
  | None => raise (AttributeError attr)
  end.

(** *** [connect_to_kdb] (lines 18-31) *)

Definition connect_to_kdb : Py bool :=
  try_except
    (host <- os_getenv "KDB_HOST" (lit "localhost") ;;
     port <- int_getenv_port ;;
     print (Connecting host port) ;;
     q <- extern (CallQ host port) (kola_Q K host port) ;;
     set_kdb_connection q ;;
     print ConnectedOk ;;
     ret true)
    (fun e =>
       print (ConnectFailed e) ;;
       ret false).

(** *** [execute_kdb_query] (lines 33-82) *)

(** The envelope of line 41 and the one of line 77: four members, no
    ["result"]. *)
Definition failure_envelope (error query timestamp : pystr) : json V :=
  JObj [("success", JBool false);
        ("error", JStr error);
        ("query", JStr query);
        ("timestamp", JStr timestamp)].

(** The envelope of line 62. *)
Definition success_envelope (py_result : V) (query timestamp : pystr)
  : json V :=
  JObj [("success", JBool true);
        ("error", JNull);
        ("result", JObj [("data", JData py_result);
                         ("type", JStr (type_name K py_result))]);
        ("query", JStr query);
        ("timestamp", JStr timestamp)].

(** Lines 48-73: what runs once a handle is there. *)
Definition submit (query : pystr) : Py (json V) :=
  print (Executing query) ;;
  h <- kdb_connection_attr "connect" ;;
  extern (CallConnect h) (kola_connect K h) ;;
  h' <- kdb_connection_attr "sync" ;;
  result <- extern (CallSync h' query) (kola_sync K h' query) ;;
  py_result <- (if has_py K result
                then extern (CallPy result) (call_py K result)
                else ret result) ;;
  text <- runtime (format_value K py_result) ;;
  print (RawResult text py_result) ;;
  timestamp <- now ;;
  runtime (json_encode K py_result) ;;
  ret (success_envelope py_result query timestamp).

Definition execute_kdb_query (query : pystr) : Py (json V) :=
  try_except
    (c <- get_kdb_connection ;;
     match c with
     | None =>
         ok <- connect_to_kdb ;;
         if negb ok
         then
           timestamp <- now ;;
           ret (failure_envelope (lit "Cannot connect to KDB+")
                                 query timestamp)
         else submit query
     | Some _ => submit query
     end)
    (fun e =>
       print (QueryFailed e) ;;
       timestamp <- now ;;
       ret (failure_envelope (exn_str e) query timestamp)).

(** *** [get_connection_status] (lines 84-94) *)

Definition get_connection_status : Py (json V) :=
  c <- get_kdb_connection ;;
  let is_connected := bool_decide (c <> None) in
  host <- os_getenv "KDB_HOST" (lit "localhost") ;;
  port <- int_getenv_port ;;
  timestamp <- now ;;
  ret (JObj [("connected", JBool is_connected);
             ("host", JStr host);
             ("port", JInt port);
             ("timestamp", JStr timestamp)]).

(** *** [validate_syntax] (lines 96-110) *)

(** [len(s) > 0] and the truth value of a [str]. *)
Definition nonempty (s : pystr) : bool :=
  match s with [] => false | _ :: _ => true end.

Definition validate_syntax (query : pystr) : Py (json V) :=
  let valid := nonempty (strip query) in
  let warnings := [] in
  let '(valid, warnings) :=
    if negb (nonempty (strip query))
    then (false, warnings ++ [JStr (lit "Empty query")])
    else (valid, warnings) in
  timestamp <- now ;;
  ret (JObj [("query", JStr query);
             ("valid", JBool valid);
             ("warnings", JList warnings);
             ("timestamp", JStr timestamp)]).

(** *** [get_help] (lines 112-116) *)

Definition get_help (topic : pystr) : pystr :=
  if bool_decide (topic = lit "select")
  then lit "KDB+ SELECT: select [columns] from table [where conditions]"
  else lit "Available help topics: select".

(** *** The tools registered with the framework (lines 124-142) *)

Definition execute_query (query : pystr) : Py (json V) :=
  execute_kdb_query query.

Definition connection_status : Py (json V) :=
  get_connection_status.

Definition syntax_check (query : pystr) : Py (json V) :=
  validate_syntax query.

Definition help_info (topic : pystr) : Py pystr :=
  ret (get_help topic).

(** *** Sequences of calls

    Everything that can run after import: [connect_to_kdb] (called by
    [run_server] at startup) and the four tools. *)

Inductive operation : Type :=
| Connect
| ExecuteQuery (query : pystr)
| ConnectionStatus
| SyntaxCheck (query : pystr)
| HelpInfo (topic : pystr).

Definition run_operation (o : operation) (m : state) : state :=
  match o with
  | Connect => snd (connect_to_kdb m)
  | ExecuteQuery query => snd (execute_query query m)
  | ConnectionStatus => snd (connection_status m)
  | SyntaxCheck query => snd (syntax_check query m)
  | HelpInfo topic => snd (help_info topic m)
  end.

Definition run_operations (os : list operation) (m : state) : state :=
  fold_left (fun m o => run_operation o m) os m.

(** The events a run from [m] to [m'] added. *)
Definition emitted (m m' : state) : list (event H V) :=
  drop (length (events m)) (events m').

End Gateway.

(** ** A concrete world

    One instance of [Externals], used to run the operations on concrete
    inputs: a database that answers [1+1] and rejects everything else, a
    server that may be down, and a runtime whose [int()] reads ASCII
    decimal numerals. *)

Module Demo.

Record db := MkDb { server_up : bool; clock : pystr }.

(** [int()] on ASCII text: optional blanks, an optional sign, digits. *)
Definition digit_value (c : codepoint) : option Z :=
  if ((0x30 <=? c) && (c <=? 0x39))%N then Some (Z.of_N (c - 0x30)) else None.

Fixpoint digits (acc : Z) (s : pystr) : option Z :=
  match s with
  | [] => Some acc
  | c :: s' =>
      match digit_value c with
      | Some d => digits (10 * acc + d) s'
      | None => None
      end
  end.

Definition ValueError (s : pystr) : exn :=
  {| exn_class := "ValueError";
     exn_str := lit "invalid literal for int() with base 10: '"
                ++ s ++ lit "'" |}.

Definition int (s : pystr) : exn + Z :=
  let body := strip s in
  let '(sign, ds) :=
    match body with
    | 0x2D%N :: r => ((-1)%Z, r)
    | 0x2B%N :: r => (1%Z, r)
    | _ => (1%Z, body)
    end in
  match ds with
  | [] => inl (ValueError s)
  | _ :: _ =>
      match digits 0 ds with
      | Some z => inr (sign * z)%Z
      | None => inl (ValueError s)
      end
  end.

Definition refused : exn :=
  {| exn_class := "OSError"; exn_str := lit "Connection refused" |}.

Definition rejected (query : pystr) : exn :=
  {| exn_class := "QKolaError"; exn_str := query |}.

Definition externals : Externals db nat Z :=
  {| py_int := int;
     now_isoformat := clock;
     kola_Q := fun _ port w => (Returned (Z.to_nat port), w);
     kola_connect := fun _ w =>
       if server_up w then (Returned tt, w) else (Raised refused, w);
     kola_sync := fun _ query w =>
       if bool_decide (query = lit "1+1")
       then (Returned 2%Z, w)
       else (Raised (rejected query), w);
     has_py := fun _ => false;
     call_py := fun v w => (Returned v, w);
     format_value := fun _ w => (Returned (lit "2"), w);
     type_name := fun _ => lit "int";
     json_encode := fun _ w => (Returned tt, w) |}.

Definition up : db :=
  {| server_up := true; clock := lit "2025-01-01T00:00:00" |}.

Definition down : db :=
  {| server_up := false; clock := lit "2025-01-01T00:00:00" |}.

(** [KDB_PORT=abc]. *)
Definition bad_port : gmap string pystr := {[ "KDB_PORT" := lit "abc" ]}.

(** A process that holds handle 7 while [KDB_PORT] reads [abc]. *)
Definition stale : machine db nat Z :=
  {| world := up; kdb_connection := Some 7%nat;
     environ := bad_port; events := [] |}.

End Demo.

(** ** The command line (lines 118-201)

    The rest of the module: the two [run_server] of lines 144 and 154,
    [test_connection], and the dispatch under [__main__].  These print
    lines of their own, so the process keeps one log, oldest first, of its
    console lines and of the events of the gateway. *)

Inductive console_line (V : Type) : Type :=
| McpNotAvailable
| CannotRun
| StartingServer
| ConnectingOnStartup
| ServerReady
| TestingConnection
| Rule (width : nat)
| CannotConnect
| QueryTestPassed
| QueryTestFailed (result : json V)
| StatusConnected
| StatusDisconnected
| AllTestsPassed
| UnknownOption (arg : pystr)
| Usage.
Arguments McpNotAvailable {V}.
Arguments CannotRun {V}.
Arguments StartingServer {V}.
Arguments ConnectingOnStartup {V}.
Arguments ServerReady {V}.
Arguments TestingConnection {V}.
Arguments Rule {V} width.
Arguments CannotConnect {V}.
Arguments QueryTestPassed {V}.
Arguments QueryTestFailed {V} result.
Arguments StatusConnected {V}.
Arguments StatusDisconnected {V}.
Arguments AllTestsPassed {V}.
Arguments UnknownOption {V} arg.
Arguments Usage {V}.

Inductive output (H V : Type) : Type :=
| Gateway (e : event H V)
| Console (l : console_line V).
Arguments Gateway {H V} e.
Arguments Console {H V} l.

Record process (W H V : Type) : Type := MkProcess {
  mach : machine W H V;
  log : list (output H V)
}.

(** The process as the interpreter starts it. *)
Definition boot {W H V : Type} (w : W) (env : gmap string pystr)
  : process W H V :=
  {| mach := initial w env; log := [] |}.

(** What [json.loads] makes of the payload part of a document: whether it
    equals [2], its truth value, and its members. *)
Record Loaded (V : Type) : Type := MkLoaded {
  data_eq_2 : V -> bool;
  data_truthy : V -> bool;
  data_subscript : V -> string -> exn + json V
}.

(** A request of the framework for one of the four tools. *)
Inductive request : Type :=
| CallExecuteQuery (query : pystr)
| CallConnectionStatus
| CallSyntaxCheck (query : pystr)
| CallHelpInfo (topic : pystr).

Definition tool (r : request) : operation :=
  match r with
  | CallExecuteQuery query => ExecuteQuery query
  | CallConnectionStatus => ConnectionStatus
  | CallSyntaxCheck query => SyntaxCheck query
  | CallHelpInfo topic => HelpInfo topic
  end.

(** Kinds of events, for counting. *)
Definition is_CallQ {H V : Type} (e : event H V) : bool :=
  match e with CallQ _ _ => true | _ => false end.

Definition is_CallConnect {H V : Type} (e : event H V) : bool :=
  match e with CallConnect _ => true | _ => false end.

Definition is_CallSync {H V : Type} (e : event H V) : bool :=
  match e with CallSync _ _ => true | _ => false end.

Definition is_library_call {H V : Type} (e : event H V) : bool :=
  match e with Print _ => false | _ => true end.

Definition count {A : Type} (f : A -> bool) (l : list A) : nat :=
  length (List.filter f l).

(** The operations that only read: the status, the syntax check, the
    help. *)
Definition reads_only (o : operation) : bool :=
  match o with
  | Connect | ExecuteQuery _ => false
  | ConnectionStatus | SyntaxCheck _ | HelpInfo _ => true
  end.

Section CommandLine.

Context {W H V : Type}.
Variable K : Externals W H V.
Variable L : Loaded V.
(** Whether [from mcp.server.fastmcp import FastMCP] succeeds. *)
Variable mcp_available : bool.

Local Abbreviation proc := (process W H V).
Local Abbreviation Cli := (M proc).

(** The process after the gateway went from [mach p] to [m']. *)
Definition advance (p : proc) (m' : machine W H V) : proc :=
  {| mach := m'; log := log p ++ map Gateway (emitted (mach p) m') |}.

(** A gateway operation run by the process. *)
Definition lift {A : Type} (c : M (machine W H V) A) : Cli A :=
  fun p => let '(r, m') := c (mach p) in (r, advance p m').

Definition say (l : console_line V) : Cli unit :=
  fun p => (Returned tt, {| mach := mach p; log := log p ++ [Console l] |}).


(** *** [json.loads] and what the test reads from its result *)

(** [json.loads] of a text [json.dumps] wrote: the document again. *)
Definition json_loads (text : json V) : Cli (json V) := ret text.

Definition KeyError (key : string) : exn :=
  {| exn_class := "KeyError"; exn_str := lit "'" ++ lit key ++ lit "'" |}.

Definition TypeError (message : string) : exn :=
  {| exn_class := "TypeError"; exn_str := lit message |}.

(** [j[key]] with a [str] key. *)
Definition subscript (j : json V) (key : string) : Cli (json V) :=
  match j with
  | JObj members =>
      match field key members with
      | Some v => ret v
      | None => raise (KeyError key)
      end
  | JData v =>
      match data_subscript L v key with
      | inr x => ret x
      | inl e => raise e
      end
  | JNull => raise (TypeError "'NoneType' object is not subscriptable")
  | JBool _ => raise (TypeError "'bool' object is not subscriptable")
  | JInt _ => raise (TypeError "'int' object is not subscriptable")
  | JStr _ => raise (TypeError "string indices must be integers, not 'str'")
  | JList _ =>
      raise (TypeError "list indices must be integers or slices, not str")
  end.

(** The truth value of a loaded document. *)
Definition truthy (j : json V) : bool :=
  match j with
  | JNull => false
  | JBool b => b
  | JInt z => negb (z =? 0)%Z
  | JStr s => nonempty s
  | JList l => match l with [] => false | _ :: _ => true end
  | JObj members => match members with [] => false | _ :: _ => true end
  | JData v => data_truthy L v
  end.

(** [j == 2]. *)
Definition eq_2 (j : json V) : bool :=
  match j with
  | JInt z => (z =? 2)%Z
  | JData v => data_eq_2 L v
  | _ => false
  end.

(** *** [run_server] (lines 144-150 and 154-155) *)

(** [mcp.run()]: the framework serves the requests it receives, one at
    a time, and answers a tool that raised with an error of its own. *)
Definition mcp_run (requests : list request) : Cli unit :=
  fun p =>
    (Returned tt,
     fold_left (fun p r => advance p (run_operation K (tool r) (mach p)))
               requests p).

Definition run_server (requests : list request) : Cli unit :=
  if mcp_available
  then
    say StartingServer ;;
    say ConnectingOnStartup ;;
    lift (connect_to_kdb K) ;;
    say ServerReady ;;
    mcp_run requests
  else say CannotRun.

(** *** [test_connection] (lines 157-187) *)

Definition test_connection : Cli bool :=
  say TestingConnection ;;
  say (Rule 40) ;;
  ok <- lift (connect_to_kdb K) ;;
  if negb ok
  then say CannotConnect ;; ret false
  else
    result <- lift (execute_kdb_query K (lit "1+1")) ;;
    parsed <- json_loads result ;;
    success <- subscript parsed "success" ;;
    passed <- (if truthy success
               then
                 r <- subscript parsed "result" ;;
                 data <- subscript r "data" ;;
                 ret (eq_2 data)
               else ret false) ;;
    if passed
    then
      say QueryTestPassed ;;
      status <- lift (get_connection_status K) ;;
      parsed_status <- json_loads status ;;
      connected <- subscript parsed_status "connected" ;;
      if truthy connected
      then
        say StatusConnected ;;
        say AllTestsPassed ;;
        ret true
      else say StatusDisconnected ;; ret false
    else say (QueryTestFailed result) ;; ret false.

(** *** The script (lines 118-122, 152-153 and 189-201) *)

(** The body under [__main__]; its value is the status the process exits
    with: [sys.exit(0 if success else 1)] after [--test], [0] when the
    script runs to its end. *)
Definition main (requests : list request) (argv : list pystr) : Cli Z :=
  match argv with
  | _ :: arg :: _ =>
      if bool_decide (arg = lit "--test")
      then
        success <- test_connection ;;
        ret (if success then 0%Z else 1%Z)
      else if bool_decide (arg = lit "--server")
      then run_server requests ;; ret 0%Z
      else
        say (UnknownOption arg) ;;
        say Usage ;;
        ret 0%Z
  | _ => run_server requests ;; ret 0%Z
  end.

(** The module run as a script: the import of the framework, then
    [main]. *)
Definition script (requests : list request) (argv : list pystr) : Cli Z :=
  (if mcp_available then ret tt else say McpNotAvailable) ;;
  main requests argv.

End CommandLine.

(** What [json.loads] gives for the integers of the concrete world. *)
Definition demo_loaded : Loaded Z :=
  {| data_eq_2 := fun z => (z =? 2)%Z;
     data_truthy := fun z => negb (z =? 0)%Z;
     data_subscript := fun _ _ =>
       inl {| exn_class := "TypeError";
              exn_str := lit "'int' object is not subscriptable" |} |}.

(** A process of the concrete world that holds handle 7. *)
Definition demo_connected (w : Demo.db) : machine Demo.db nat Z :=
  {| world := w; kdb_connection := Some 7%nat;
     environ := ∅; events := [] |}.

(** ** Properties *)

(** *** [str.strip()] *)

Lemma lstrip_nil_iff (s : pystr) :
  lstrip s = [] <-> forallb Py_UNICODE_ISSPACE s = true.
Proof.
  induction s as [|c s IH]; simpl; [tauto|].
  destruct (Py_UNICODE_ISSPACE c); simpl; [exact IH|].
  split; discriminate.
Qed.

Lemma lstrip_head (s : pystr) (c : codepoint) (r : pystr) :
  lstrip s = c :: r -> Py_UNICODE_ISSPACE c = false.
Proof.
  induction s as [|a s IH]; simpl; [discriminate|].
  destruct (Py_UNICODE_ISSPACE a) eqn:Ha; [exact IH|].
  intros [= <- _]. exact Ha.
Qed.

Lemma forallb_isspace_rev (s : pystr) :
  forallb Py_UNICODE_ISSPACE (rev s) = forallb Py_UNICODE_ISSPACE s.
Proof.
  induction s as [|c s IH]; simpl; [reflexivity|].
  rewrite forallb_app, IH. simpl.
  rewrite andb_true_r. apply andb_comm.
Qed.

Lemma strip_nil_iff (s : pystr) :
  strip s = [] <-> forallb Py_UNICODE_ISSPACE s = true.
Proof.
  unfold strip, rstrip. split.
  - intros Hs. apply (f_equal (@rev codepoint)) in Hs.
    rewrite rev_involutive in Hs. simpl in Hs.
    apply lstrip_nil_iff in Hs. rewrite forallb_isspace_rev in Hs.
    destruct (lstrip s) as [|c r] eqn:Hl.
    + apply lstrip_nil_iff. exact Hl.
    + apply lstrip_head in Hl. simpl in Hs. rewrite Hl in Hs. discriminate.
  - intros Hs. apply lstrip_nil_iff in Hs. rewrite Hs. reflexivity.
Qed.

Lemma whitespace_only_forallb (s : pystr) :
  whitespace_only s <-> forallb Py_UNICODE_ISSPACE s = true.
Proof.
  unfold whitespace_only. rewrite Forall_forall, forallb_forall.
  split; intros Hs c Hc; apply Hs; apply list_elem_of_In; exact Hc.
Qed.

Lemma nonempty_strip (s : pystr) :
  nonempty (strip s) = negb (forallb Py_UNICODE_ISSPACE s).
Proof.
  destruct (forallb Py_UNICODE_ISSPACE s) eqn:Hs.
  - apply strip_nil_iff in Hs. rewrite Hs. reflexivity.
  - destruct (strip s) eqn:Hq; [|reflexivity].
    apply strip_nil_iff in Hq. congruence.
Qed.

(** *** Running the operations *)

Ltac unfold_py :=
  unfold execute_query, connection_status, syntax_check, help_info,
    execute_kdb_query, submit, connect_to_kdb, get_connection_status,
    validate_syntax, kdb_connection_attr, int_getenv_port, os_getenv, now,
    get_kdb_connection, set_kdb_connection, print, emit, extern, runtime,
    try_except, bind, ret, raise in *.

(** Follow every path through an operation: one goal per combination of
    answers of the collaborators. *)
Ltac run_py :=
  intros; unfold_py; simpl in *;
  repeat (case_match; simplify_eq/=); intros; simplify_eq/=;
  try congruence.

Section Lifecycle.

Context {W H V : Type}.
Variable K : Externals W H V.

Local Abbreviation state := (machine W H V).

(** [connect_to_kdb] *)


Lemma connect_to_kdb_environ (m : state) :
  environ (snd (connect_to_kdb K m)) = environ m.
Proof. run_py; reflexivity. Qed.

Lemma connect_to_kdb_true (m : state) :
  fst (connect_to_kdb K m) = Returned true ->
  is_Some (kdb_connection (snd (connect_to_kdb K m)))
  /\ exists port, fst (int_getenv_port K m) = Returned port.
Proof. run_py; eauto. Qed.

Lemma connect_to_kdb_keeps_presence (m : state) :
  is_Some (kdb_connection m) ->
  is_Some (kdb_connection (snd (connect_to_kdb K m))).
Proof. run_py; eauto. Qed.

(** [int(os.getenv('KDB_PORT', 4000))] reads the environment only. *)

Lemma int_getenv_port_environ (m m' : state) :
  environ m' = environ m ->
  fst (int_getenv_port K m') = fst (int_getenv_port K m).
Proof. unfold int_getenv_port. intros ->. repeat case_match; reflexivity. Qed.

(** [get_connection_status] in one equation: it returns exactly when
    the port parses, and hands the state back as it got it. *)

Lemma get_connection_status_eq (m : state) :
  get_connection_status K m =
    (match fst (int_getenv_port K m) with
     | Returned port =>
         Returned
           (JObj [("connected", JBool (bool_decide (kdb_connection m <> None)));
                  ("host", JStr (default (lit "localhost")
                                         (environ m !! "KDB_HOST")));
                  ("port", JInt port);
                  ("timestamp", JStr (now_isoformat K (world m)))])
     | Raised e => Raised e
     end, m).
Proof. run_py; reflexivity. Qed.

(** Whenever [int()] rejects the value of [KDB_PORT], the status tool
    raises what [int()] raised. *)
Lemma connection_status_raises (m : state) (s : pystr) (e : exn) :
  environ m !! "KDB_PORT" = Some s ->
  py_int K s = inl e ->
  fst (connection_status K m) = Raised e.
Proof.
  intros Hs He. unfold connection_status.
  rewrite get_connection_status_eq. unfold int_getenv_port.
  rewrite Hs, He. reflexivity.
Qed.

(** [execute_kdb_query] *)

Lemma execute_kdb_query_returns (query : pystr) (m : state) :
  exists d, fst (execute_kdb_query K query m) = Returned (JObj d).
Proof. run_py; eauto. Qed.

Lemma execute_kdb_query_environ (query : pystr) (m : state) :
  environ (snd (execute_kdb_query K query m)) = environ m.
Proof. run_py; reflexivity. Qed.

Lemma execute_kdb_query_keeps_presence (query : pystr) (m : state) :
  is_Some (kdb_connection m) ->
  is_Some (kdb_connection (snd (execute_kdb_query K query m))).
Proof.
  intros [h Hh]. unfold execute_kdb_query, try_except, bind at 1.
  unfold get_kdb_connection at 1. rewrite Hh.
  run_py; eauto.
Qed.

Lemma execute_kdb_query_after_connect (query : pystr) (m : state) :
  kdb_connection m = None ->
  fst (connect_to_kdb K m) = Returned true ->
  is_Some (kdb_connection (snd (execute_kdb_query K query m))).
Proof. run_py; eauto. Qed.

(** [validate_syntax] and [get_help] touch nothing. *)

Lemma validate_syntax_state (query : pystr) (m : state) :
  snd (validate_syntax K query m) = m.
Proof. run_py; reflexivity. Qed.

Lemma validate_syntax_returns (query : pystr) (m : state) :
  exists d, fst (validate_syntax K query m) = Returned (JObj d).
Proof. run_py; eauto. Qed.

Lemma help_info_eq (topic : pystr) (m : state) :
  help_info topic m = (Returned (get_help topic), m).
Proof. reflexivity. Qed.

(** Sequences of operations *)

Lemma run_operation_environ (o : operation) (m : state) :
  environ (run_operation K o m) = environ m.
Proof.
  destruct o; simpl.
  - apply connect_to_kdb_environ.
  - apply execute_kdb_query_environ.
  - unfold connection_status. rewrite get_connection_status_eq. reflexivity.
  - unfold syntax_check. rewrite validate_syntax_state. reflexivity.
  - reflexivity.
Qed.

Lemma run_operation_keeps_presence (o : operation) (m : state) :
  is_Some (kdb_connection m) ->
  is_Some (kdb_connection (run_operation K o m)).
Proof.
  intros Hm. destruct o; simpl.
  - apply connect_to_kdb_keeps_presence, Hm.
  - apply execute_kdb_query_keeps_presence, Hm.
  - unfold connection_status. rewrite get_connection_status_eq. exact Hm.
  - unfold syntax_check. rewrite validate_syntax_state. exact Hm.
  - exact Hm.
Qed.

Lemma run_operations_cons (o : operation) (os : list operation) (m : state) :
  run_operations K (o :: os) m = run_operations K os (run_operation K o m).
Proof. reflexivity. Qed.

Lemma run_operations_environ (os : list operation) (m : state) :
  environ (run_operations K os m) = environ m.
Proof.
  revert m. induction os as [|o os IH]; intros m; [reflexivity|].
  rewrite run_operations_cons, IH. apply run_operation_environ.
Qed.

Lemma run_operations_keep_presence (os : list operation) (m : state) :
  is_Some (kdb_connection m) ->
  is_Some (kdb_connection (run_operations K os m)).
Proof.
  revert m. induction os as [|o os IH]; intros m Hm; [exact Hm|].
  rewrite run_operations_cons.
  apply IH, run_operation_keeps_presence, Hm.
Qed.

End Lifecycle.

(** *** The request life cycle *)

Section Contract.

Context {W H V : Type}.
Variable K : Externals W H V.

Local Abbreviation state := (machine W H V).

(** C1.  When no handle exists and the one call of [connect_to_kdb] made by
    [execute_kdb_query] returns [False], the operation returns the envelope
    with [success = false], [error = "Cannot connect to KDB+"], the query as
    given and a timestamp; the envelope has no ["result"] member; and nothing
    else ran: the state is the one the connect attempt left. *)
Theorem execute_kdb_query_cannot_connect (query : pystr) (m : state) :
  kdb_connection m = None ->
  fst (connect_to_kdb K m) = Returned false ->
  let m' := snd (connect_to_kdb K m) in
  let d := [("success", JBool false);
            ("error", JStr (lit "Cannot connect to KDB+"));
            ("query", JStr query);
            ("timestamp", JStr (now_isoformat K (world m')))] in
  execute_kdb_query K query m = (Returned (JObj d), m')
  /\ field "result" d = None.
Proof.
  intros Hnone Hfail m' d. split; [|reflexivity].
  subst d m'. revert Hfail.
  unfold execute_kdb_query, try_except, bind at 1.
  unfold get_kdb_connection at 1. rewrite Hnone.
  unfold bind at 1.
  destruct (connect_to_kdb K m) as [[ok|e] m1]; simpl; [|discriminate].
  intros [= ->]. reflexivity.
Qed.



(** C4, as amended.  When [connect_to_kdb] returns [False] the global is
    what it was before the call: unset if it was unset, and the same handle
    if one was present. *)
Theorem connect_to_kdb_failure_keeps_handle (m : state) :
  fst (connect_to_kdb K m) = Returned false ->
  kdb_connection (snd (connect_to_kdb K m)) = kdb_connection m.
Proof.
  unfold connect_to_kdb, try_except.
  destruct (bind _ _ m) as [[ok|e] m1] eqn:Hbody; simpl.
  - intros [= ->]. revert Hbody. run_py.
  - intros _. revert Hbody. run_py; reflexivity.
Qed.

(** The trace of one call *)

Lemma emitted_app (m m' : state) (new : list (event H V)) :
  events m' = events m ++ new -> emitted m m' = new.
Proof. unfold emitted. intros ->. apply drop_app_length. Qed.


(** C6.  [validate_syntax] returns, without touching the state, a record
    whose ["valid"] is [false] and whose ["warnings"] is exactly
    [["Empty query"]] when the query is empty or made of whitespace only,
    and whose ["valid"] is [true], with no warning, for every other query.
    Nothing else about the query enters the result. *)
Theorem validate_syntax_empty_rule (query : pystr) (m : state) :
  exists valid warnings,
    validate_syntax K query m =
      (Returned (JObj [("query", JStr query);
                       ("valid", JBool valid);
                       ("warnings", JList warnings);
                       ("timestamp", JStr (now_isoformat K (world m)))]), m)
    /\ (query = [] \/ whitespace_only query ->
        valid = false /\ warnings = [JStr (lit "Empty query")])
    /\ (~ (query = [] \/ whitespace_only query) ->
        valid = true /\ warnings = []).
Proof.
  unfold validate_syntax. rewrite nonempty_strip.
  destruct (forallb Py_UNICODE_ISSPACE query) eqn:Hws; simpl.
  - eexists _, _. split; [reflexivity|]. split; [auto|].
    intros Hn. exfalso. apply Hn. right.
    apply whitespace_only_forallb, Hws.
  - eexists _, _. split; [reflexivity|]. split; [|auto].
    intros [-> | Hall]; [discriminate Hws|].
    apply whitespace_only_forallb in Hall. congruence.
Qed.

(** C9.  [get_help] is a total function of the topic: the select usage line
    for exactly ["select"], the list of topics for every other string, the
    empty one included; and the tool [help_info] returns it without raising
    and without touching the state. *)
Theorem get_help_static_lookup :
  get_help (lit "select")
  = lit "KDB+ SELECT: select [columns] from table [where conditions]"
  /\ (forall topic,
        topic <> lit "select" ->
        get_help topic = lit "Available help topics: select")
  /\ get_help [] = lit "Available help topics: select"
  /\ (forall topic (m : state),
        help_info topic m = (Returned (get_help topic), m)).
Proof.
  split; [reflexivity|]. split; [|split; [reflexivity|reflexivity]].
  intros topic Hne. unfold get_help.
  rewrite bool_decide_eq_false_2 by exact Hne. reflexivity.
Qed.

(** C7.  [get_connection_status] is a read: whatever it answers, the state
    after it (world, handle, environment, events, so also no call into the
    library) is the state before it.  When it returns a record, ["connected"]
    is [true] exactly when the global holds a handle.  Right after a
    [connect_to_kdb] that returned [True] it returns ["connected" = true];
    on the state at import, before any connect, it returns
    ["connected" = false] (it returns there whenever the port setting
    parses).  All of it for every behaviour of the library and the server. *)
Theorem get_connection_status_pure_read :
  (forall m : state, snd (get_connection_status K m) = m)
  /\ (forall (m : state) d,
        fst (get_connection_status K m) = Returned (JObj d) ->
        exists b,
          field "connected" d = Some (JBool b)
          /\ (b = true <-> kdb_connection m <> None))
  /\ (forall m : state,
        fst (connect_to_kdb K m) = Returned true ->
        exists d,
          fst (get_connection_status K (snd (connect_to_kdb K m)))
          = Returned (JObj d)
          /\ field "connected" d = Some (JBool true))
  /\ (forall (w : W) env port,
        fst (int_getenv_port K (initial w env)) = Returned port ->
        exists d,
          fst (get_connection_status K (initial w env)) = Returned (JObj d)
          /\ field "connected" d = Some (JBool false)).
Proof.
  split; [|split; [|split]].
  - intros m. rewrite get_connection_status_eq. reflexivity.
  - intros m d. rewrite get_connection_status_eq. simpl.
    destruct (fst (int_getenv_port K m)); [|discriminate].
    intros [= <-]. eexists. split; [reflexivity|].
    apply bool_decide_eq_true.
  - intros m Hok.
    destruct (@connect_to_kdb_true _ _ _ K m Hok) as [[h Hh] [port Hport]].
    rewrite get_connection_status_eq. simpl.
    rewrite (@int_getenv_port_environ _ _ _ K m _ (connect_to_kdb_environ K m)).
    rewrite Hport, Hh.
    eexists. split; reflexivity.
  - intros w env port Hport.
    rewrite get_connection_status_eq. simpl. rewrite Hport.
    eexists. split; reflexivity.
Qed.

(** C10.  No sequence of operations takes a handle away: if the global holds
    a handle, it holds one after any run of [connect_to_kdb] and the four
    tools.  And when [execute_kdb_query] starts without a handle and its
    connect succeeds, a handle is there when the call is over, whatever came
    of the query (a failure envelope included), and [get_connection_status]
    after any further operations returns ["connected" = true]. *)
Theorem handle_presence_monotone :
  (forall os (m : state),
     is_Some (kdb_connection m) ->
     is_Some (kdb_connection (run_operations K os m)))
  /\ (forall query (m : state),
        kdb_connection m = None ->
        fst (connect_to_kdb K m) = Returned true ->
        let m' := snd (execute_kdb_query K query m) in
        is_Some (kdb_connection m')
        /\ forall os,
            exists d,
              fst (get_connection_status K (run_operations K os m'))
              = Returned (JObj d)
              /\ field "connected" d = Some (JBool true)).
Proof.
  split; [apply run_operations_keep_presence|].
  intros query m Hnone Hok m'.
  assert (Hm' : is_Some (kdb_connection m'))
    by (apply execute_kdb_query_after_connect; assumption).
  split; [exact Hm'|].
  intros os.
  destruct (@run_operations_keep_presence _ _ _ K os m' Hm') as [h Hh].
  destruct (@connect_to_kdb_true _ _ _ K m Hok) as [_ [port Hport]].
  rewrite get_connection_status_eq. simpl.
  rewrite (@int_getenv_port_environ _ _ _ K m (run_operations K os m')); cycle 1.
  { rewrite run_operations_environ. apply execute_kdb_query_environ. }
  rewrite Hport, Hh. eexists. split; reflexivity.
Qed.

End Contract.

(** *** The operations on the concrete world *)

(** C1 at work: no handle, [KDB_PORT=abc], so the connect attempt fails. *)
Lemma execute_kdb_query_cannot_connect_witness :
  let m := initial (H:=nat) (V:=Z) Demo.up Demo.bad_port in
  kdb_connection m = None
  /\ fst (connect_to_kdb Demo.externals m) = Returned false
  /\ fst (execute_kdb_query Demo.externals (lit " 1+1 ") m)
     = Returned (JObj [("success", JBool false);
                       ("error", JStr (lit "Cannot connect to KDB+"));
                       ("query", JStr (lit " 1+1 "));
                       ("timestamp", JStr (lit "2025-01-01T00:00:00"))]).
Proof.
  intros m. split; [reflexivity|]. split; [reflexivity|].
  pose proof (@execute_kdb_query_cannot_connect _ _ _ Demo.externals
                (lit " 1+1 ") m eq_refl eq_refl) as Hc.
  destruct Hc as [Hc _]. rewrite Hc. reflexivity.
Defined.

(** C3.  With [KDB_PORT=abc] the tool [connection_status] raises the
    [ValueError] of [int()]: line 92 runs outside any [try]. *)
Theorem connection_status_raises_on_bad_port :
  connection_status Demo.externals
    (initial (H:=nat) (V:=Z) Demo.up Demo.bad_port)
  = (Raised (Demo.ValueError (lit "abc")),
     initial Demo.up Demo.bad_port).
Proof. reflexivity. Qed.

(** C4 as stated fails: a process that holds a handle still holds it after
    a [connect_to_kdb] that returned [False]. *)
Lemma connect_to_kdb_failure_does_not_unset :
  fst (connect_to_kdb Demo.externals Demo.stale) = Returned false
  /\ kdb_connection (snd (connect_to_kdb Demo.externals Demo.stale))
     = Some 7%nat
  /\ kdb_connection (snd (connect_to_kdb Demo.externals Demo.stale))
     <> None.
Proof. split; [reflexivity|]. split; [reflexivity|discriminate]. Qed.

Lemma connect_to_kdb_failure_keeps_handle_witness :
  fst (connect_to_kdb Demo.externals Demo.stale) = Returned false
  /\ kdb_connection (snd (connect_to_kdb Demo.externals Demo.stale))
     = kdb_connection Demo.stale.
Proof.
  split; [reflexivity|].
  apply (@connect_to_kdb_failure_keeps_handle _ _ _ Demo.externals Demo.stale).
  reflexivity.
Defined.

(** C6 at work on three blanks. *)
Lemma validate_syntax_empty_rule_witness :
  whitespace_only (lit "   ")
  /\ exists d,
       fst (validate_syntax Demo.externals (lit "   ")
              (initial (H:=nat) Demo.up ∅))
       = Returned (JObj d)
       /\ field "valid" d = Some (JBool false)
       /\ field "warnings" d = Some (JList [JStr (lit "Empty query")]).
Proof.
  assert (Hws : whitespace_only (lit "   "))
    by (repeat constructor).
  split; [exact Hws|].
  destruct (@validate_syntax_empty_rule _ _ _ Demo.externals (lit "   ")
              (initial (H:=nat) Demo.up ∅))
    as (valid & warnings & Hrun & Hblank & _).
  destruct (Hblank (or_intror Hws)) as [-> ->].
  rewrite Hrun. eexists. split; [reflexivity|]. split; reflexivity.
Defined.

(** C7 at work: the status right after a successful connect. *)
Lemma get_connection_status_pure_read_witness :
  let m := initial (H:=nat) (V:=Z) Demo.up ∅ in
  fst (connect_to_kdb Demo.externals m) = Returned true
  /\ exists d,
       fst (get_connection_status Demo.externals
              (snd (connect_to_kdb Demo.externals m)))
       = Returned (JObj d)
       /\ field "connected" d = Some (JBool true).
Proof.
  intros m. split; [reflexivity|].
  destruct (@get_connection_status_pure_read _ _ _ Demo.externals)
    as (_ & _ & Hafter & _).
  apply (Hafter m). reflexivity.
Defined.


(** C10 at work: the server is down, so the handshake of the first query
    fails after the connect succeeded; the handle stays. *)
Lemma handle_presence_monotone_witness :
  let m := initial (H:=nat) (V:=Z) Demo.down ∅ in
  let m' := snd (execute_kdb_query Demo.externals (lit "1+1") m) in
  kdb_connection m = None
  /\ fst (connect_to_kdb Demo.externals m) = Returned true
  /\ fst (execute_kdb_query Demo.externals (lit "1+1") m)
     = Returned (JObj [("success", JBool false);
                       ("error", JStr (lit "Connection refused"));
                       ("query", JStr (lit "1+1"));
                       ("timestamp", JStr (lit "2025-01-01T00:00:00"))])
  /\ is_Some (kdb_connection m')
  /\ exists d,
       fst (get_connection_status Demo.externals m') = Returned (JObj d)
       /\ field "connected" d = Some (JBool true).
Proof.
  intros m m'. split; [reflexivity|]. split; [reflexivity|].
  split; [reflexivity|].
  destruct (@handle_presence_monotone _ _ _ Demo.externals) as [_ Hafter].
  destruct (Hafter (lit "1+1") m eq_refl eq_refl) as [Hsome Hstatus].
  split; [exact Hsome|]. exact (Hstatus []).
Defined.

(** ** Further properties of the gateway *)

(** Replace [emitted m m'] by the list of events the run added. *)
Ltac trace_of_run :=
  repeat match goal with
         | |- context [emitted ?a ?b] =>
             erewrite (@emitted_app _ _ _ a b)
               by (simpl; rewrite <- ?app_assoc; reflexivity)
         | Hs : context [emitted ?a ?b] |- _ =>
             erewrite (@emitted_app _ _ _ a b) in Hs
               by (simpl; rewrite <- ?app_assoc; reflexivity)
         end.

(** Two recorded answers to the same call are one answer. *)
Ltac merge_answers :=
  repeat match goal with
         | H1 : ?x = _, H2 : ?x = _ |- _ =>
             rewrite H1 in H2; simplify_eq/=
         end.

Section Further.

Context {W H V : Type}.
Variable K : Externals W H V.

Local Abbreviation state := (machine W H V).

(** X1.  When a handle exists, [execute_kdb_query] leaves that very handle
    in the global and creates no connection object: no [kola.Q] call is
    made. *)
Theorem execute_kdb_query_reuses_handle
  (query : pystr) (m : state) (h : H) :
  kdb_connection m = Some h ->
  let m' := snd (execute_kdb_query K query m) in
  kdb_connection m' = Some h
  /\ count is_CallQ (emitted m m') = 0.
Proof.
  intros Hh m'. subst m'.
  unfold execute_kdb_query, try_except, bind at 1.
  unfold get_kdb_connection at 1. rewrite Hh.
  run_py; (split; [reflexivity|]); trace_of_run; reflexivity.
Qed.

(** X2.  One call of [execute_kdb_query] is one attempt: at most one
    [kola.Q], at most one handshake and at most one [sync]. *)
Theorem execute_kdb_query_single_attempt (query : pystr) (m : state) :
  let new := emitted m (snd (execute_kdb_query K query m)) in
  count is_CallQ new <= 1
  /\ count is_CallConnect new <= 1
  /\ count is_CallSync new <= 1.
Proof.
  intros new. subst new.
  run_py; trace_of_run; unfold count; simpl; lia.
Qed.





(** X7.  [connect_to_kdb] dials what the environment says: a [kola.Q] call
    it makes has the value of [KDB_HOST], or [localhost] when unset, as host,
    and as port what [int()] reads from [KDB_PORT], or 4000 when unset. *)
Theorem connect_to_kdb_dials_environment
  (m : state) (host : pystr) (port : Z) :
  In (CallQ host port) (emitted m (snd (connect_to_kdb K m))) ->
  host = default (lit "localhost") (environ m !! "KDB_HOST")
  /\ match environ m !! "KDB_PORT" with
     | None => port = 4000%Z
     | Some s => py_int K s = inr port
     end.
Proof.
  run_py; trace_of_run; simpl in *;
    intuition (simplify_eq; try reflexivity; try congruence).
Qed.



(** X10.  The status names the endpoint [connect_to_kdb] dialled: after a
    connect that called [kola.Q(host, port)], [get_connection_status]
    returns a record with that host and that port. *)
Theorem status_reports_dialled_endpoint
  (m : state) (host : pystr) (port : Z) :
  let m' := snd (connect_to_kdb K m) in
  In (CallQ host port) (emitted m m') ->
  exists d,
    fst (get_connection_status K m') = Returned (JObj d)
    /\ field "host" d = Some (JStr host)
    /\ field "port" d = Some (JInt port).
Proof.
  intros m' Hin. subst m'.
  rewrite get_connection_status_eq.
  rewrite (@int_getenv_port_environ _ _ _ K m _ (connect_to_kdb_environ K m)).
  rewrite connect_to_kdb_environ.
  revert Hin. run_py; trace_of_run; simpl in *;
    intuition (simplify_eq; eexists; repeat split; reflexivity).
Qed.

(** X11.  [get_connection_status] raises exactly when [KDB_PORT] is set to a
    value [int()] rejects; in every other environment it returns. *)
Theorem get_connection_status_raises_iff (m : state) :
  (exists e, fst (get_connection_status K m) = Raised e)
  <-> (exists s e, environ m !! "KDB_PORT" = Some s /\ py_int K s = inl e).
Proof.
  rewrite get_connection_status_eq. unfold int_getenv_port. simpl.
  destruct (environ m !! "KDB_PORT") as [s|] eqn:Hs; simpl.
  - destruct (py_int K s) as [e|z] eqn:Hint; simpl.
    + split; intros _; eauto.
    + split.
      * intros [e He]. discriminate He.
      * intros (s' & e & [= <-] & He). congruence.
  - split.
    + intros [e He]. discriminate He.
    + intros (s & e & Hs' & _). discriminate Hs'.
Qed.

(** X12.  With neither variable set the endpoint is [localhost:4000]: that
    is what [connect_to_kdb] dials and what the status reports. *)
Theorem default_endpoint (m : state) :
  environ m !! "KDB_HOST" = None ->
  environ m !! "KDB_PORT" = None ->
  In (CallQ (lit "localhost") 4000) (emitted m (snd (connect_to_kdb K m)))
  /\ exists d,
       fst (get_connection_status K m) = Returned (JObj d)
       /\ field "host" d = Some (JStr (lit "localhost"))
       /\ field "port" d = Some (JInt 4000).
Proof.
  intros Hhost Hport. split.
  - run_py; trace_of_run; simpl;
      repeat match goal with
             | Hx : environ _ !! _ = None |- _ => rewrite Hx; clear Hx
             end;
      simpl; tauto.
  - rewrite get_connection_status_eq. unfold int_getenv_port.
    rewrite Hhost, Hport. simpl. eexists. repeat split; reflexivity.
Qed.

(** X13.  Whitespace around a query does not change the verdict of
    [validate_syntax]: padded on either side with whitespace, a query gets
    the same [valid] and the same [warnings]. *)
Theorem validate_syntax_ignores_padding
  (before query after : pystr) (m : state) :
  whitespace_only before ->
  whitespace_only after ->
  exists valid warnings,
    fst (validate_syntax K (before ++ query ++ after) m)
    = Returned (JObj [("query", JStr (before ++ query ++ after));
                      ("valid", JBool valid);
                      ("warnings", JList warnings);
                      ("timestamp", JStr (now_isoformat K (world m)))])
    /\ fst (validate_syntax K query m)
       = Returned (JObj [("query", JStr query);
                         ("valid", JBool valid);
                         ("warnings", JList warnings);
                         ("timestamp", JStr (now_isoformat K (world m)))]).
Proof.
  intros Hb Ha.
  apply whitespace_only_forallb in Hb, Ha.
  unfold validate_syntax. rewrite !nonempty_strip.
  rewrite !forallb_app, Hb, Ha, andb_true_r. simpl.
  destruct (forallb Py_UNICODE_ISSPACE query); simpl;
    eexists _, _; split; reflexivity.
Qed.

(** Output is never taken back: over any run of operations the
    events already recorded stay, in order, at the front of the record. *)
Lemma events_only_grow (os : list operation) (m : state) :
  exists new, events (run_operations K os m) = events m ++ new.
Proof.
  revert m. induction os as [|o os IH]; intros m.
  - exists []. rewrite app_nil_r. reflexivity.
  - rewrite run_operations_cons.
    destruct (IH (run_operation K o m)) as [new Hnew].
    assert (Hstep : exists new1, events (run_operation K o m)
                                 = events m ++ new1).
    { destruct o; simpl.
      - run_py; eexists; rewrite <- ?app_assoc; reflexivity.
      - run_py; eexists; rewrite <- ?app_assoc; reflexivity.
      - unfold connection_status. rewrite get_connection_status_eq.
        exists []. rewrite app_nil_r. reflexivity.
      - unfold syntax_check. rewrite validate_syntax_state.
        exists []. rewrite app_nil_r. reflexivity.
      - exists []. rewrite app_nil_r. reflexivity. }
    destruct Hstep as [new1 Hnew1].
    exists (new1 ++ new). rewrite Hnew, Hnew1, app_assoc. reflexivity.
Qed.

(** X14.  The status, the syntax check and the help only read: any run of
    them leaves the whole state (handle, world, environment, events) as it
    was, so a connection is only ever made by [connect_to_kdb] or
    [execute_query]. *)
Theorem read_only_tools_touch_nothing (os : list operation) (m : state) :
  forallb reads_only os = true ->
  run_operations K os m = m.
Proof.
  revert m. induction os as [|o os IH]; intros m Hos; [reflexivity|].
  simpl in Hos. apply andb_true_iff in Hos as [Ho Hos].
  rewrite run_operations_cons.
  assert (Hstep : run_operation K o m = m).
  { destruct o; simpl in *; try discriminate.
    - unfold connection_status. rewrite get_connection_status_eq.
      reflexivity.
    - unfold syntax_check. apply validate_syntax_state.
    - reflexivity. }
  rewrite Hstep. apply IH, Hos.
Qed.

End Further.


(** ** Properties of the command line *)

Ltac unfold_cli :=
  unfold script, main, run_server, mcp_run, test_connection, json_loads,
    subscript, lift, say, advance in *.


Section CommandLineProperties.

Context {W H V : Type}.
Variable K : Externals W H V.
Variable L : Loaded V.

Local Abbreviation proc := (process W H V).




(** X16.  When its connect fails, [test_connection] stops there: it
    returns [False], sends no query and asks no status; the gateway is in
    the state the connect attempt left, and the output is the two header
    lines, what the connect printed, and "Cannot connect to KDB+". *)
Theorem test_connection_stops_at_failed_connect (p : proc) :
  fst (connect_to_kdb K (mach p)) = Returned false ->
  let m1 := snd (connect_to_kdb K (mach p)) in
  test_connection K L p
  = (Returned false,
     {| mach := m1;
        log := log p
               ++ [Console TestingConnection; Console (Rule 40)]
               ++ map Gateway (emitted (mach p) m1)
               ++ [Console CannotConnect] |}).
Proof.
  intros Hfail m1. subst m1.
  unfold test_connection, bind at 1 2 3. unfold say at 1 2. simpl.
  unfold lift at 1. simpl.
  destruct (connect_to_kdb K (mach p)) as [[ok|e] m1] eqn:Hc;
    simpl in *; [|discriminate].
  injection Hfail as ->. simpl.
  unfold bind, say, ret, advance. simpl.
  rewrite <- !app_assoc. reflexivity.
Qed.

(** X17.  [test_connection] returns [True] exactly when its connect
    returned [True] and the query [1+1] came back in a success envelope whose
    data equals 2. *)
Theorem test_connection_passes_iff (p : proc) :
  let m1 := snd (connect_to_kdb K (mach p)) in
  fst (test_connection K L p) = Returned true
  <-> fst (connect_to_kdb K (mach p)) = Returned true
      /\ exists v timestamp,
           fst (execute_kdb_query K (lit "1+1") m1)
           = Returned (success_envelope K v (lit "1+1") timestamp)
           /\ data_eq_2 L v = true.
Proof.
  intros m1. subst m1. unfold success_envelope.
  unfold_cli; run_py; merge_answers.
  all: split;
    [ intros; simplify_eq; try (split; [reflexivity|]; eauto)
    | intros [Hc (v & ts & He & Hv)]; simplify_eq; try congruence ].
Qed.

(** X18.  The whole self-test creates at most one connection object and
    makes at most one handshake and one [sync]: the query reuses the handle
    of the connect. *)
Theorem test_connection_dials_once (p : proc) :
  let new := emitted (mach p) (mach (snd (test_connection K L p))) in
  count is_CallQ new <= 1
  /\ count is_CallConnect new <= 1
  /\ count is_CallSync new <= 1.
Proof.
  intros new. subst new.
  unfold_cli; run_py; trace_of_run; unfold count; simpl; lia.
Qed.





End CommandLineProperties.

(** *** The further properties on the concrete world *)

(** X1 at work: a second [1+1] on the handle in place. *)
Lemma execute_kdb_query_reuses_handle_witness :
  let m := demo_connected Demo.up in
  let m' := snd (execute_kdb_query Demo.externals (lit "1+1") m) in
  kdb_connection m = Some 7%nat
  /\ kdb_connection m' = Some 7%nat
  /\ count is_CallQ (emitted m m') = 0.
Proof.
  intros m m'. split; [reflexivity|].
  apply (@execute_kdb_query_reuses_handle _ _ _ Demo.externals
           (lit "1+1") m 7%nat).
  reflexivity.
Defined.





(** X7 at work: [KDB_HOST=db1] and [KDB_PORT=5001]. *)
Lemma connect_to_kdb_dials_environment_witness :
  let env : gmap string pystr :=
    <["KDB_HOST" := lit "db1"]> {[ "KDB_PORT" := lit "5001" ]} in
  let m := initial (H:=nat) (V:=Z) Demo.up env in
  In (CallQ (lit "db1") 5001)
     (emitted m (snd (connect_to_kdb Demo.externals m)))
  /\ lit "db1" = default (lit "localhost") (environ m !! "KDB_HOST")
  /\ match environ m !! "KDB_PORT" with
     | None => 5001%Z = 4000%Z
     | Some s => py_int Demo.externals s = inr 5001%Z
     end.
Proof.
  intros env m.
  assert (Hin : In (CallQ (lit "db1") 5001)
                   (emitted m (snd (connect_to_kdb Demo.externals m))))
    by (vm_compute; tauto).
  split; [exact Hin|].
  exact (@connect_to_kdb_dials_environment _ _ _ Demo.externals m
           (lit "db1") 5001%Z Hin).
Defined.



(** X10 at work. *)
Lemma status_reports_dialled_endpoint_witness :
  let m := initial (H:=nat) (V:=Z) Demo.up ∅ in
  let m' := snd (connect_to_kdb Demo.externals m) in
  In (CallQ (lit "localhost") 4000) (emitted m m')
  /\ exists d,
       fst (get_connection_status Demo.externals m') = Returned (JObj d)
       /\ field "host" d = Some (JStr (lit "localhost"))
       /\ field "port" d = Some (JInt 4000).
Proof.
  intros m m'.
  assert (Hin : In (CallQ (lit "localhost") 4000) (emitted m m'))
    by (vm_compute; tauto).
  split; [exact Hin|].
  exact (@status_reports_dialled_endpoint _ _ _ Demo.externals m
           (lit "localhost") 4000%Z Hin).
Defined.

(** X12 at work: the empty environment. *)
Lemma default_endpoint_witness :
  let m := initial (H:=nat) (V:=Z) Demo.up ∅ in
  environ m !! "KDB_HOST" = None
  /\ environ m !! "KDB_PORT" = None
  /\ In (CallQ (lit "localhost") 4000)
        (emitted m (snd (connect_to_kdb Demo.externals m))).
Proof.
  intros m. split; [reflexivity|]. split; [reflexivity|].
  exact (proj1 (@default_endpoint _ _ _ Demo.externals m eq_refl eq_refl)).
Defined.

(** X13 at work: [1+1] between blanks. *)
Lemma validate_syntax_ignores_padding_witness :
  let m := initial (H:=nat) (V:=Z) Demo.up ∅ in
  whitespace_only (lit "  ")
  /\ whitespace_only (lit " ")
  /\ exists valid warnings,
       fst (validate_syntax Demo.externals
              (lit "  " ++ lit "1+1" ++ lit " ") m)
       = Returned (JObj [("query", JStr (lit "  " ++ lit "1+1" ++ lit " "));
                         ("valid", JBool valid);
                         ("warnings", JList warnings);
                         ("timestamp",
                          JStr (now_isoformat Demo.externals (world m)))])
       /\ fst (validate_syntax Demo.externals (lit "1+1") m)
          = Returned (JObj [("query", JStr (lit "1+1"));
                            ("valid", JBool valid);
                            ("warnings", JList warnings);
                            ("timestamp",
                             JStr (now_isoformat Demo.externals (world m)))]).
Proof.
  intros m.
  assert (Hb : whitespace_only (lit "  ")) by (repeat constructor).
  assert (Ha : whitespace_only (lit " ")) by (repeat constructor).
  split; [exact Hb|]. split; [exact Ha|].
  exact (@validate_syntax_ignores_padding _ _ _ Demo.externals
           (lit "  ") (lit "1+1") (lit " ") m Hb Ha).
Defined.

(** X14 at work: status, syntax check and help, with no handle. *)
Lemma read_only_tools_touch_nothing_witness :
  let os := [ConnectionStatus; SyntaxCheck (lit "1+1"); HelpInfo (lit "select");
             ConnectionStatus] in
  let m := initial (H:=nat) (V:=Z) Demo.down Demo.bad_port in
  forallb reads_only os = true
  /\ run_operations Demo.externals os m = m.
Proof.
  intros os m. split; [reflexivity|].
  apply (@read_only_tools_touch_nothing _ _ _ Demo.externals os m).
  reflexivity.
Defined.

(** X16 at work: [--test] with [KDB_PORT=abc]. *)
Lemma test_connection_stops_at_failed_connect_witness :
  let p := boot (H:=nat) (V:=Z) Demo.up Demo.bad_port in
  fst (connect_to_kdb Demo.externals (mach p)) = Returned false
  /\ fst (test_connection Demo.externals demo_loaded p) = Returned false
  /\ log (snd (test_connection Demo.externals demo_loaded p))
     = [Console TestingConnection; Console (Rule 40);
        Gateway (Print (ConnectFailed (Demo.ValueError (lit "abc"))));
        Console CannotConnect].
Proof.
  intros p. split; [reflexivity|].
  rewrite (@test_connection_stops_at_failed_connect _ _ _ Demo.externals
             demo_loaded p eq_refl).
  split; reflexivity.
Defined.
